(** * lightning_pod: the autoencoder module and its training driver

    A shallow embedding of [lightning_pod/core/module.py] (Encoder, Decoder,
    PodModule) and of the parts of [examples/hydra/trainer.py] that name the
    model and the early-stopping callback.

    Numeric layer.  Tensors carry their shape and a row-major storage of
    real numbers: the arithmetic of the tensor library is taken over [R], so
    rounding is not part of this development.  Random draws (dropout) and
    the two metric functions of torchmetrics are collaborators of the
    program and enter as section variables.

    Constructors.  [Encoder_init], [Decoder_init] and [PodModule_init] are
    the objects that the bodies of the three [__init__] describe, layer
    for layer; [new_Encoder], [new_Decoder] and [new_PodModule] are the
    calls themselves, in which the constructors of the layers bind their
    keyword arguments and check their values. *)

From Stdlib Require Import List String Ascii Arith Bool Lia Reals Lra.
Import ListNotations.

Set Implicit Arguments.

Local Open Scope string_scope.
Local Open Scope list_scope.

(** ** Exceptions and results *)

Inductive exn : Type :=
| IndexError                      (* a dimension that the tensor does not have *)
| ViewError                       (* RuntimeError raised by [Tensor.view] *)
| ShapeMismatch                   (* RuntimeError of a linear layer: last dimension is not in_features *)
| BroadcastError                  (* operands of different shapes *)
| MetricError (msg : string)      (* raised inside a metric function *)
| ImportError (name : string)     (* cannot import name ... *)
| TypeError (keyword : string)    (* a call with a keyword argument the callee does not have *)
| ValueError (what : string).     (* an argument outside the range the callee accepts *)

Inductive result (A : Type) : Type :=
| Ok (a : A)
| Err (e : exn).

Arguments Ok {A} a.
Arguments Err {A} e.


(** ** Tensors *)

(** A tensor in contiguous, row-major storage.  Strides are not
    represented: a tensor that is not contiguous, on which [view] can
    raise, has no counterpart here. *)
Record Tensor : Type := mkTensor { shape : list nat; data : list R }.

Definition prod (dims : list nat) : nat := fold_right Nat.mul 1%nat dims.

Definition numel (t : Tensor) : nat := prod (shape t).

(** [t.size(d)] *)
Definition size (t : Tensor) (d : nat) : result nat :=
  match nth_error (shape t) d with
  | Some n => Ok n
  | None => Err IndexError
  end.

(** [t.view(n, -1)]: the second dimension is inferred from the number of
    elements.  The library multiplies the given dimensions ([n]), accepts
    when the element count equals that product or is a multiple of a
    positive product, and then refuses to infer a dimension next to a zero
    product. *)
Definition view_infer (t : Tensor) (n : nat) : result Tensor :=
  let total := numel t in
  if (total =? n)%nat || ((0 <? n)%nat && (total mod n =? 0)%nat) then
    if (n =? 0)%nat then Err ViewError
    else Ok (mkTensor [n; (total / n)%nat] (data t))
  else Err ViewError.

(** Row [r] of a storage cut in rows of [c] entries. *)
Definition chunk (r c : nat) (d : list R) : list R := firstn c (skipn (r * c) d).

Definition Rsum (l : list R) : R := fold_right Rplus 0%R l.

(** ** Layers *)

(** [nn.Linear(in_features, out_features, bias=True)]: the weight has shape
    (out_features, in_features) and is read by index, as is the bias. *)
Record Linear : Type := mkLinear {
  in_features : nat;
  out_features : nat;
  weight : nat -> nat -> R;
  bias : nat -> R
}.

Fixpoint dot (w : nat -> R) (v : list R) (i : nat) : R :=
  match v with
  | [] => 0%R
  | a :: v' => (a * w i + dot w v' (S i))%R
  end.

Definition linear_row (l : Linear) (v : list R) : list R :=
  map (fun o => (dot (weight l o) v 0 + bias l o)%R) (seq 0 (out_features l)).

(** [y = x W^T + b] on the last dimension; every leading dimension is kept. *)
Definition Linear_forward (l : Linear) (t : Tensor) : result Tensor :=
  match rev (shape t) with
  | [] => Err ShapeMismatch
  | d :: lead =>
      if (d =? in_features l)%nat then
        Ok (mkTensor (rev lead ++ [out_features l])
              (flat_map (fun r => linear_row l (chunk r d (data t)))
                        (seq 0 (prod lead))))
      else Err ShapeMismatch
  end.

(** [nn.PReLU()] with its single learned slope [a]. *)
Definition prelu (a v : R) : R := (Rmax 0 v + a * Rmin 0 v)%R.

Definition PReLU_forward (a : R) (t : Tensor) : Tensor :=
  mkTensor (shape t) (map (prelu a) (data t)).

Inductive Layer : Type :=
| Linear_ (l : Linear)
| PReLU_ (a : R)
| Dropout_ (p : R).

(** [nn.Sequential(...)] *)
Definition Sequential : Type := list Layer.

(** [F.log_softmax(t, dim=1)] on a two-dimensional tensor: every entry
    minus the logarithm of the sum of the exponentials of its row.  A
    tensor without a dimension 1 raises; tensors of more than two
    dimensions do not occur in this program and are refused here. *)
Definition log_softmax_row (row : list R) : list R :=
  map (fun v => (v - ln (Rsum (map exp row)))%R) row.

Definition log_softmax (t : Tensor) : result Tensor :=
  match shape t with
  | [n; c] =>
      Ok (mkTensor [n; c]
            (flat_map (fun r => log_softmax_row (chunk r c (data t))) (seq 0 n)))
  | _ => Err IndexError
  end.

(** [F.mse_loss(input, target)] with the default mean reduction, for
    operands of one shape (broadcasting of different shapes is not
    modelled: the program never reaches it, see [common_flow_shapes]). *)
Fixpoint sq_diffs (a b : list R) : list R :=
  match a, b with
  | u :: a', v :: b' => ((u - v) * (u - v))%R :: sq_diffs a' b'
  | _, _ => []
  end.

Definition mse (a b : Tensor) : R :=
  (Rsum (sq_diffs (data a) (data b)) / INR (numel a))%R.

Definition mse_loss (a b : Tensor) : result R :=
  if list_eq_dec Nat.eq_dec (shape a) (shape b) then Ok (mse a b)
  else Err BroadcastError.

(** ** The modules of module.py *)

(** Initial values of the parameters of one Linear, PReLU, Dropout, Linear
    stack.  The constructors of the library draw them at random; training
    rewrites them in place and never changes the dimensions. *)
Record StackParams : Type := mkStackParams {
  W1 : nat -> nat -> R;
  B1 : nat -> R;
  slope : R;
  W2 : nat -> nat -> R;
  B2 : nat -> R
}.

(** [class Encoder]: the field [self.encoder]. *)
Record Encoder : Type := mkEncoder { Encoder_encoder : Sequential }.

(** The encoder that the body of [Encoder.__init__(self, dropout)]
    describes: its four layers, in order. *)
Definition Encoder_init (dropout : R) (th : StackParams) : Encoder :=
  mkEncoder
    [ Linear_ (mkLinear (28 * 28) 64 (W1 th) (B1 th));
      PReLU_ (slope th);
      Dropout_ dropout;
      Linear_ (mkLinear 64 3 (W2 th) (B2 th)) ].

(** [class Decoder]: the field [self.decoder]. *)
Record Decoder : Type := mkDecoder { Decoder_decoder : Sequential }.

(** The decoder that the body of [Decoder.__init__(self, dropout)]
    describes: its four layers, in order. *)
Definition Decoder_init (dropout : R) (th : StackParams) : Decoder :=
  mkDecoder
    [ Linear_ (mkLinear 3 64 (W1 th) (B1 th));
      PReLU_ (slope th);
      Dropout_ dropout;
      Linear_ (mkLinear 64 (28 * 28) (W2 th) (B2 th)) ].

Inductive OptimizerClass : Type :=
| Adam
| OtherOptimizer (name : string).

(** [class PodModule]; [training] is the mode flag that [train()] and
    [eval()] of the base class set on the module and its children. *)
Record PodModule : Type := mkPodModule {
  encoder : Encoder;
  decoder : Decoder;
  optimizer : OptimizerClass;
  lr : R;
  accuracy_task : string;
  training : bool
}.

(** The module that the body of
    [PodModule.__init__(self, optimizer, lr, dropout, accuracy_task)]
    describes; a new module is in training mode. *)
Definition PodModule_init (optimizer : OptimizerClass) (lr dropout : R)
    (accuracy_task : string) (the thd : StackParams) : PodModule :=
  {| encoder := Encoder_init dropout the;
     decoder := Decoder_init dropout thd;
     optimizer := optimizer;
     lr := lr;
     accuracy_task := accuracy_task;
     training := true |}.

(** The defaults of the signature of [__init__]. *)
Definition PodModule_default (the thd : StackParams) : PodModule :=
  PodModule_init Adam (1 / 1000) (1 / 2) "multilabel" the thd.

(** [self.train(mode)]; [self.eval()] is [train false]. *)
Definition train (mode : bool) (self : PodModule) : PodModule :=
  {| encoder := encoder self;
     decoder := decoder self;
     optimizer := optimizer self;
     lr := lr self;
     accuracy_task := accuracy_task self;
     training := mode |}.

(** The labels of a batch: one class index per sample. *)
Abbreviation Labels := (list nat) (only parsing).

(** The local variables of the shared forward path. *)
Record Locals : Type := mkLocals {
  x_flat : Tensor;
  z : Tensor;
  x_hat : Tensor;
  y_hat : Tensor;
  loss : R
}.

(** ** The driver, examples/hydra/trainer.py *)

(** The names that module.py binds at its top level, in the order of the
    file: its imports and its three classes. *)
Definition module_py_names : list string :=
  [ "Optional"; "L"; "F"; "nn"; "optim"; "accuracy";
    "structural_similarity_index_measure"; "Encoder"; "Decoder"; "PodModule" ].

(** [from <module> import <name>] against the names of the module. *)
Definition import_from (names : list string) (name : string) : result unit :=
  if existsb (String.eqb name) names then Ok tt else Err (ImportError name).

Definition and_then {A B} (r : result A) (k : A -> result B) : result B :=
  match r with
  | Ok a => k a
  | Err e => Err e
  end.

(** Running trainer.py: the imports from the package in the order of the
    file (lines 28 to 30), then [main()].  [lightning_pod.conf] and
    [lightning_pod.pipeline.datamodule] are other files of the package:
    the outcome of importing them, like the outcome of [main], is an
    argument. *)
Definition trainer_py (import_conf import_datamodule main : result unit) : result unit :=
  and_then import_conf (fun _ =>
  and_then (import_from module_py_names "LitModel") (fun _ =>
  and_then import_datamodule (fun _ =>
  main))).

Record ModelCheckpoint : Type := mkModelCheckpoint { dirpath : string; filename : string }.

Record EarlyStopping : Type := mkEarlyStopping { monitor : string; mode : string }.

Inductive Callback : Type :=
| Checkpoint_ (c : ModelCheckpoint)
| EarlyStopping_ (e : EarlyStopping).

(** [early_stopping = EarlyStopping(monitor="loss", mode="min")] *)
Definition early_stopping : EarlyStopping := mkEarlyStopping "loss" "min".

(** [callbacks = [checkpoint_callback, early_stopping]] *)
Definition callbacks (CHKPTSPATH : string) : list Callback :=
  [ Checkpoint_ (mkModelCheckpoint CHKPTSPATH "model"); EarlyStopping_ early_stopping ].

(** The entries of a metric log that a callback monitoring [name] reads. *)
Definition monitored (name : string) (l : list (string * R)) : list (string * R) :=
  filter (fun kv => String.eqb (fst kv) name) l.

(** Whether a metric name ends in a blank. *)
Fixpoint trailing_space (k : string) : bool :=
  match k with
  | EmptyString => false
  | String c EmptyString => Ascii.eqb c " "%char
  | String _ k' => trailing_space k'
  end.

(** ** Shapes *)

Definition rmap {A B} (f : A -> B) (r : result A) : result B :=
  match r with
  | Ok a => Ok (f a)
  | Err e => Err e
  end.

(** What a layer does to a shape: only Linear looks at it. *)
Definition Layer_shape (l : Layer) (sh : list nat) : result (list nat) :=
  match l with
  | Linear_ lin =>
      match rev sh with
      | [] => Err ShapeMismatch
      | d :: lead =>
          if (d =? in_features lin)%nat then Ok (rev lead ++ [out_features lin])
          else Err ShapeMismatch
      end
  | PReLU_ _ => Ok sh
  | Dropout_ _ => Ok sh
  end.

Fixpoint Sequential_shape (ls : Sequential) (sh : list nat) : result (list nat) :=
  match ls with
  | [] => Ok sh
  | l :: ls' => and_then (Layer_shape l sh) (Sequential_shape ls')
  end.

(** [x.view(x.size(0), -1)], the first two lines of the forward path. *)
Definition flatten (x : Tensor) : result Tensor :=
  and_then (size x 0) (view_infer x).

(** A tensor whose storage has as many entries as its shape says. *)
Definition wf (t : Tensor) : Prop := List.length (data t) = numel t.

(** The dropout probabilities of a stack. *)
Fixpoint dropouts (ls : Sequential) : list R :=
  match ls with
  | [] => []
  | Dropout_ p :: ls' => p :: dropouts ls'
  | _ :: ls' => dropouts ls'
  end.

(** ** The constructors as the library runs them *)

(** Binding the keyword arguments of a call to the parameters of the
    callee: the first keyword that is not a parameter raises TypeError. *)
Definition bind_keywords (params given : list string) : result unit :=
  match find (fun k => negb (existsb (String.eqb k) params)) given with
  | Some k => Err (TypeError k)
  | None => Ok tt
  end.

(** The parameters of [nn.Linear], of [nn.PReLU] and of
    [torchmetrics.functional.accuracy], from their signatures. *)
Definition Linear_params : list string :=
  [ "in_features"; "out_features"; "bias"; "device"; "dtype" ].

Definition PReLU_params : list string :=
  [ "num_parameters"; "init"; "device"; "dtype" ].

Definition accuracy_params : list string :=
  [ "preds"; "target"; "task"; "threshold"; "num_classes"; "num_labels";
    "average"; "multidim_average"; "top_k"; "ignore_index"; "validate_args" ].

(** [nn.Linear(in_features=..., out_features=..., bias=True)] *)
Definition nn_Linear (l : Linear) : result Layer :=
  and_then (bind_keywords Linear_params ["in_features"; "out_features"; "bias"])
           (fun _ => Ok (Linear_ l)).

(** [nn.PReLU(inplace=False)] *)
Definition nn_PReLU (a : R) : result Layer :=
  and_then (bind_keywords PReLU_params ["inplace"]) (fun _ => Ok (PReLU_ a)).

(** [nn.Dropout(dropout)]: a probability outside [0, 1] is refused. *)
Definition nn_Dropout (p : R) : result Layer :=
  if Rlt_dec p 0 then Err (ValueError "dropout probability")
  else if Rlt_dec 1 p then Err (ValueError "dropout probability")
  else Ok (Dropout_ p).

(** [nn.Sequential(a, b, c, d)]: the arguments are evaluated from left to
    right, and the first that raises ends the call. *)
Definition nn_Sequential (a b c d : result Layer) : result Sequential :=
  and_then a (fun la =>
  and_then b (fun lb =>
  and_then c (fun lc =>
  and_then d (fun ld =>
  Ok [la; lb; lc; ld])))).

(** [Encoder(dropout)], lines 47 to 64. *)
Definition new_Encoder (dropout : R) (th : StackParams) : result Encoder :=
  and_then
    (nn_Sequential
       (nn_Linear (mkLinear (28 * 28) 64 (W1 th) (B1 th)))
       (nn_PReLU (slope th))
       (nn_Dropout dropout)
       (nn_Linear (mkLinear 64 3 (W2 th) (B2 th))))
    (fun encoder => Ok (mkEncoder encoder)).

(** [Decoder(dropout)], lines 92 to 109. *)
Definition new_Decoder (dropout : R) (th : StackParams) : result Decoder :=
  and_then
    (nn_Sequential
       (nn_Linear (mkLinear 3 64 (W1 th) (B1 th)))
       (nn_PReLU (slope th))
       (nn_Dropout dropout)
       (nn_Linear (mkLinear 64 (28 * 28) (W2 th) (B2 th))))
    (fun decoder => Ok (mkDecoder decoder)).

(** [PodModule(optimizer, lr, dropout, accuracy_task)], lines 132 to 145. *)
Definition new_PodModule (optimizer : OptimizerClass) (lr dropout : R)
    (accuracy_task : string) (the thd : StackParams) : result PodModule :=
  and_then (new_Encoder dropout the) (fun encoder =>
  and_then (new_Decoder dropout thd) (fun decoder =>
  Ok (mkPodModule encoder decoder optimizer lr accuracy_task true))).

(** The call [accuracy(y_hat, y, accuracy_task=...)] of line 176 against
    the function of the library: [accuracy_task] is not one of its
    parameters; were it one, the required parameter [task] would still be
    missing. *)
Definition torchmetrics_accuracy (preds : Tensor) (target : Labels)
    (accuracy_task : string) : result R :=
  and_then (bind_keywords accuracy_params ["accuracy_task"])
           (fun _ => Err (TypeError "task")).

(** ** Stand-ins for the collaborators, and sample inputs *)

(** A generator that is a counter and always draws 0. *)
Definition counter_uniform (g : nat) : R * nat := (0%R, S g).

(** A generator with two states that draws 0 and 3/4 in turn. *)
Definition alternating_uniform (g : bool) : R * bool :=
  ((if g then 0 else 3 / 4)%R, negb g).

(** Metric functions that return a constant. *)
Definition accuracy_const (preds : Tensor) (target : Labels) (task : string) : result R :=
  Ok 1%R.

Definition ssim_const (preds target : Tensor) : result R := Ok 1%R.

Definition zero_params : StackParams :=
  mkStackParams (fun _ _ => 0%R) (fun _ => 0%R) (1 / 4)%R (fun _ _ => 0%R) (fun _ => 0%R).

(** One sample of 784 zeros, a batch of four images, and an empty batch. *)
Definition one_sample : Tensor := mkTensor [1; 784]%nat (repeat 0%R 784).

Definition four_images : Tensor := mkTensor [4; 1; 28; 28]%nat (repeat 0%R 3136).

Definition empty_batch : Tensor := mkTensor [0; 784]%nat [].

(** ** [main] of trainer.py *)

(** The paths and the seed that [lightning_pod.conf] supplies. *)
Record Conf : Type := mkConf {
  LOGSPATH : string;
  PROFILERPATH : string;
  CHKPTSPATH : string;
  MODELPATH : string;
  PREDSPATH : string;
  SPLITSPATH : string;
  GLOBALSEED : nat
}.

(** [cfg.trainer.fast_dev_run]: a flag, or a number of batches. *)
Inductive FastDevRun : Type :=
| FdrBool (b : bool)
| FdrInt (n : nat).

(** The truth value that [not] takes of it. *)
Definition truthy (f : FastDevRun) : bool :=
  match f with
  | FdrBool b => b
  | FdrInt n => negb (n =? 0)%nat
  end.

Inductive Artifact : Type :=
| Predictions
| TrainData
| TestData
| ValData.

(** The calls that [main] makes into its collaborators, and the reads
    that can raise. *)
Inductive Call : Type :=
| new_TensorBoardLogger (save_dir name : string)
| new_PyTorchProfiler (dirpath filename : string)
| new_ModelCheckpoint (c : ModelCheckpoint)
| new_EarlyStopping (e : EarlyStopping)
| seed_everything (seed : nat) (workers : bool)
| new_LitDataModule
| new_LitModel
| new_Trainer (cbs : list Callback)
| trainer_fit
| read_fast_dev_run
| trainer_test (ckpt_path : string)
| read_input_sample
| to_onnx (path : string) (export_params : bool)
| val_dataloader
| trainer_predict
| torch_vstack
| new_TensorDataset
| torch_save (what : Artifact) (path : string).

(** How a run of [main] ends. *)
Inductive ending (A : Type) : Type :=
| Returns (a : A)
| Raises (c : Call).

Arguments Returns {A} a.
Arguments Raises {A} c.

(** The calls made so far, the last one last. *)
Definition Trace : Type := list Call.

(** The driver's computations: they extend the trace and stop at the
    first call that raises.  Which call raises is up to the collaborators:
    [fails] tells it from the calls made before. *)
Definition D (A : Type) : Type := Trace -> ending A * Trace.

Definition dret {A} (a : A) : D A := fun tr => (Returns a, tr).

Definition dbind {A B} (c : D A) (k : A -> D B) : D B :=
  fun tr =>
    match c tr with
    | (Returns a, tr') => k a tr'
    | (Raises e, tr') => (Raises e, tr')
    end.

Definition call (fails : Trace -> Call -> bool) (c : Call) : D unit :=
  fun tr => if fails tr c then (Raises c, tr ++ [c]) else (Returns tt, tr ++ [c]).

Definition starts_with_sep (s : string) : bool :=
  match s with
  | String c _ => Ascii.eqb c "/"%char
  | EmptyString => false
  end.

Fixpoint ends_with_sep (s : string) : bool :=
  match s with
  | EmptyString => false
  | String c EmptyString => Ascii.eqb c "/"%char
  | String _ s' => ends_with_sep s'
  end.

(** [os.path.join(a, b)] on POSIX paths. *)
Definition path_join (a b : string) : string :=
  if starts_with_sep b then b
  else if String.eqb a "" || ends_with_sep a then (a ++ b)%string
  else (a ++ "/" ++ b)%string.

(** [main(cfg)], lines 42 to 84. *)
Definition main (fails : Trace -> Call -> bool) (conf : Conf)
    (fast_dev_run : FastDevRun) : D unit :=
  let call := call fails in
  dbind (call (new_TensorBoardLogger (LOGSPATH conf) "tensorboard")) (fun _ =>
  dbind (call (new_PyTorchProfiler (PROFILERPATH conf) "profiler")) (fun _ =>
  dbind (call (new_ModelCheckpoint (mkModelCheckpoint (CHKPTSPATH conf) "model"))) (fun _ =>
  dbind (call (new_EarlyStopping early_stopping)) (fun _ =>
  dbind (call (seed_everything (GLOBALSEED conf) true)) (fun _ =>
  dbind (call new_LitDataModule) (fun _ =>
  dbind (call new_LitModel) (fun _ =>
  dbind (call (new_Trainer (callbacks (CHKPTSPATH conf)))) (fun _ =>
  dbind (call trainer_fit) (fun _ =>
  dbind (call read_fast_dev_run) (fun _ =>
  if negb (truthy fast_dev_run) then
    dbind (call (trainer_test "best")) (fun _ =>
    dbind (call read_input_sample) (fun _ =>
    dbind (call (to_onnx (MODELPATH conf) true)) (fun _ =>
    dbind (call val_dataloader) (fun _ =>
    dbind (call trainer_predict) (fun _ =>
    dbind (call torch_vstack) (fun _ =>
    dbind (call new_TensorDataset) (fun _ =>
    dbind (call (torch_save Predictions (PREDSPATH conf))) (fun _ =>
    let train_split_fname := path_join (SPLITSPATH conf) "train.pt" in
    let test_split_fname := path_join (SPLITSPATH conf) "test.pt" in
    let val_split_fname := path_join (SPLITSPATH conf) "val.pt" in
    dbind (call (torch_save TrainData train_split_fname)) (fun _ =>
    dbind (call (torch_save TestData test_split_fname)) (fun _ =>
    call (torch_save ValData val_split_fname)))))))))))
  else dret tt)))))))))).

(** The calls of [main] in the order of the file. *)
Definition main_calls (conf : Conf) (fast_dev_run : FastDevRun) : list Call :=
  [ new_TensorBoardLogger (LOGSPATH conf) "tensorboard";
    new_PyTorchProfiler (PROFILERPATH conf) "profiler";
    new_ModelCheckpoint (mkModelCheckpoint (CHKPTSPATH conf) "model");
    new_EarlyStopping early_stopping;
    seed_everything (GLOBALSEED conf) true;
    new_LitDataModule;
    new_LitModel;
    new_Trainer (callbacks (CHKPTSPATH conf));
    trainer_fit;
    read_fast_dev_run ]
  ++ (if negb (truthy fast_dev_run) then
        [ trainer_test "best";
          read_input_sample;
          to_onnx (MODELPATH conf) true;
          val_dataloader;
          trainer_predict;
          torch_vstack;
          new_TensorDataset;
          torch_save Predictions (PREDSPATH conf);
          torch_save TrainData (path_join (SPLITSPATH conf) "train.pt");
          torch_save TestData (path_join (SPLITSPATH conf) "test.pt");
          torch_save ValData (path_join (SPLITSPATH conf) "val.pt") ]
      else []).

(** Running a list of calls up to the first that raises. *)
Fixpoint run_calls (fails : Trace -> Call -> bool) (cs : list Call) : D unit :=
  match cs with
  | [] => dret tt
  | c :: cs' => dbind (call fails c) (fun _ => run_calls fails cs')
  end.

(** Calls that write an artifact of the run to disk. *)
Definition writes_artifact (c : Call) : bool :=
  match c with
  | to_onnx _ _ => true
  | torch_save _ _ => true
  | _ => false
  end.

(** A collaborator set in which no call raises. *)
Definition never_fails (tr : Trace) (c : Call) : bool := false.

Definition sample_conf : Conf :=
  mkConf "logs" "logs/profiler" "models/checkpoints" "models/onnx/model.onnx"
         "data/predictions/predictions.pt" "data/training_split" 42.

(** Decides the test on the number of columns in a hypothesis obtained
    from [stack_run] or [common_flow_shapes] at concrete dimensions. *)
Ltac columns_ok H :=
  match type of H with
  | context [Nat.eqb ?a ?b] =>
      change (Nat.eqb a b) with true in H; cbv iota in H
  end.

(** ** The methods of the modules *)

Section Pod.

(** The generator of random numbers of the library and one uniform draw
    in [0, 1) from it. *)
Variable Generator : Type.
Variable uniform : Generator -> R * Generator.

(** [torchmetrics.functional.accuracy(preds, target, accuracy_task=...)]
    and [structural_similarity_index_measure(preds, target)]: they return
    a scalar or raise. *)
Variable accuracy : Tensor -> Labels -> string -> result R.
Variable structural_similarity_index_measure : Tensor -> Tensor -> result R.

(** What a call can change: the generator, and the metrics handed to
    [self.log], in the order of the calls. *)
Record State : Type := mkState {
  rng : Generator;
  logged : list (string * R)
}.

(** Computations that read and write the state and may raise; the state
    survives a raise. *)
Definition M (A : Type) : Type := State -> result A * State.

Definition ret {A} (a : A) : M A := fun s => (Ok a, s).

Definition bind {A B} (c : M A) (k : A -> M B) : M B :=
  fun s =>
    match c s with
    | (Ok a, s') => k a s'
    | (Err e, s') => (Err e, s')
    end.

Definition lift {A} (r : result A) : M A := fun s => (r, s).

Notation "x <- c ;; k" := (bind c (fun x => k))
  (at level 61, c at next level, right associativity).
Notation "c ;;; k" := (bind c (fun _ => k))
  (at level 61, right associativity).

(** [self.log(name, value)] *)
Definition log (name : string) (value : R) : M unit :=
  fun s => (Ok tt, mkState (rng s) (logged s ++ [(name, value)])).

(** One Bernoulli(1 - p) draw per entry; a kept entry is scaled by
    1 / (1 - p), a dropped one is zero. *)
Fixpoint dropout_draw (p : R) (d : list R) (g : Generator) : list R * Generator :=
  match d with
  | [] => ([], g)
  | v :: d' =>
      let (u, g1) := uniform g in
      let (o, g2) := dropout_draw p d' g1 in
      ((if Rlt_dec u (1 - p) then v / (1 - p) else 0)%R :: o, g2)
  end.

(** The forward of [nn.Dropout(p)]: the identity outside training mode
    and for [p = 0] (no draw is made); the input times zero for [p = 1]. *)
Definition Dropout_forward (p : R) (training : bool) (t : Tensor) : M Tensor :=
  if negb training then ret t
  else if Req_dec_T p 0 then ret t
  else if Req_dec_T p 1 then ret (mkTensor (shape t) (map (fun v => (v * 0)%R) (data t)))
  else fun s =>
    let (d, g) := dropout_draw p (data t) (rng s) in
    (Ok (mkTensor (shape t) d), mkState g (logged s)).

Definition Layer_forward (training : bool) (l : Layer) (t : Tensor) : M Tensor :=
  match l with
  | Linear_ lin => lift (Linear_forward lin t)
  | PReLU_ a => ret (PReLU_forward a t)
  | Dropout_ p => Dropout_forward p training t
  end.

Fixpoint Sequential_forward (training : bool) (ls : Sequential) (t : Tensor) : M Tensor :=
  match ls with
  | [] => ret t
  | l :: ls' =>
      t' <- Layer_forward training l t ;;
      Sequential_forward training ls' t'
  end.

(** [Encoder.forward(self, x)] *)
Definition Encoder_forward (self : Encoder) (training : bool) (x : Tensor) : M Tensor :=
  Sequential_forward training (Encoder_encoder self) x.

(** [Decoder.forward(self, x)] *)
Definition Decoder_forward (self : Decoder) (training : bool) (x : Tensor) : M Tensor :=
  logits <- Sequential_forward training (Decoder_decoder self) x ;;
  ret logits.

(** [PodModule.forward(self, x)] *)
Definition forward (self : PodModule) (x : Tensor) : M (Tensor * Tensor) :=
  n <- lift (size x 0) ;;
  x <- lift (view_infer x n) ;;
  z <- Encoder_forward (encoder self) (training self) x ;;
  x_hat <- Decoder_forward (decoder self) (training self) z ;;
  y_hat <- lift (log_softmax x_hat) ;;
  ret (x_hat, y_hat).

(** [PodModule._common_flow], from [x, y = batch] to the loss. *)
Definition common_flow_locals (self : PodModule) (batch : Tensor * Labels) : M Locals :=
  let (x, y) := batch in
  n <- lift (size x 0) ;;
  x <- lift (view_infer x n) ;;
  z <- Encoder_forward (encoder self) (training self) x ;;
  x_hat <- Decoder_forward (decoder self) (training self) z ;;
  y_hat <- lift (log_softmax x_hat) ;;
  loss <- lift (mse_loss x_hat x) ;;
  ret (mkLocals x z x_hat y_hat loss).

Definition stage_in (stage : string) (stages : list string) : bool :=
  existsb (String.eqb stage) stages.

(** [PodModule._common_flow(self, batch, stage)]; the value is the
    returned loss, or [None] when the body ends without a return. *)
Definition _common_flow (self : PodModule) (batch : Tensor * Labels)
    (stage : string) : M (option R) :=
  v <- common_flow_locals self batch ;;
  (if stage_in stage ["val"; "test"] then
     acc <- lift (accuracy (y_hat v) (snd batch) (accuracy_task self)) ;;
     ssim <- lift (structural_similarity_index_measure (x_hat v) (x_flat v)) ;;
     log (stage ++ "_ssim ")%string ssim ;;;
     log (stage ++ "_acc")%string acc ;;;
     log (stage ++ "_loss")%string (loss v)
   else ret tt) ;;;
  if String.eqb stage "training" then
    log (stage ++ "_loss")%string (loss v) ;;;
    ret (Some (loss v))
  else ret None.

(** [PodModule.training_step(self, batch)]: the call is a statement, its
    value is dropped and the method returns [None]. *)
Definition training_step (self : PodModule) (batch : Tensor * Labels) : M (option R) :=
  _common_flow self batch "training" ;;;
  ret None.

(** [PodModule.test_step(self, batch, *args)] *)
Definition test_step (self : PodModule) (batch : Tensor * Labels) : M (option R) :=
  _common_flow self batch "test" ;;;
  ret None.

(** [PodModule.validation_step(self, batch, *args)] *)
Definition validation_step (self : PodModule) (batch : Tensor * Labels) : M (option R) :=
  _common_flow self batch "val" ;;;
  ret None.

(** [PodModule.predict_step(self, batch, batch_idx, dataloader_idx=0)] *)
Definition predict_step (self : PodModule) (batch : Tensor * Labels) : M (Tensor * Tensor) :=
  let (x, y) := batch in
  forward self x.


(** ** Lists and rows *)

Lemma flat_map_const_length (A : Type) (f : A -> list R) (c : nat) (l : list A) :
  (forall a, List.length (f a) = c) ->
  List.length (flat_map f l) = (List.length l * c)%nat.
Proof.
  intros Hf. induction l as [|a l IH]; simpl.
  - reflexivity.
  - rewrite length_app, Hf, IH. reflexivity.
Qed.

Lemma dropout_draw_length (p : R) (d : list R) (g : Generator) :
  List.length (fst (dropout_draw p d g)) = List.length d.
Proof.
  revert g. induction d as [|v d IH]; intros g; simpl.
  - reflexivity.
  - destruct (uniform g) as [u g1]. specialize (IH g1).
    destruct (dropout_draw p d g1) as [o g2]. simpl in *. now rewrite IH.
Qed.

Lemma linear_row_length (l : Linear) (v : list R) :
  List.length (linear_row l v) = out_features l.
Proof. unfold linear_row. now rewrite length_map, length_seq. Qed.

Lemma prod_app (a b : list nat) : prod (a ++ b) = (prod a * prod b)%nat.
Proof.
  induction a as [|x a IH]; simpl.
  - lia.
  - fold (prod (a ++ b)). fold (prod a). rewrite IH. lia.
Qed.

Lemma prod_rev (a : list nat) : prod (rev a) = prod a.
Proof.
  induction a as [|x a IH]; simpl.
  - reflexivity.
  - rewrite prod_app, IH. simpl. fold (prod a). lia.
Qed.

(** ** Layers: results, shapes and state *)

Lemma Linear_forward_shape (l : Linear) (t : Tensor) :
  rmap shape (Linear_forward l t) = Layer_shape (Linear_ l) (shape t).
Proof.
  unfold Linear_forward, Layer_shape.
  destruct (rev (shape t)) as [|d lead]; [reflexivity|].
  destruct (d =? in_features l)%nat; reflexivity.
Qed.

Lemma Linear_forward_wf (l : Linear) (t t' : Tensor) :
  Linear_forward l t = Ok t' -> wf t'.
Proof.
  unfold Linear_forward, wf, numel.
  destruct (rev (shape t)) as [|d lead]; [discriminate|].
  destruct (d =? in_features l)%nat; [|discriminate].
  intros H. injection H as <-. simpl.
  rewrite flat_map_const_length with (c := out_features l)
    by (intros; apply linear_row_length).
  rewrite length_seq, prod_app, prod_rev. simpl. lia.
Qed.

(** A dropout layer returns a tensor of the shape it was given and
    leaves the metric log alone. *)
Lemma Dropout_forward_run (p : R) (tr : bool) (t : Tensor) (s : State) :
  exists t' s',
    Dropout_forward p tr t s = (Ok t', s') /\
    shape t' = shape t /\
    List.length (data t') = List.length (data t) /\
    logged s' = logged s.
Proof.
  unfold Dropout_forward, ret.
  destruct tr; simpl.
  - destruct (Req_dec_T p 0).
    + exists t, s. auto.
    + destruct (Req_dec_T p 1).
      * eexists _, s. split; [reflexivity|]. simpl. rewrite length_map. auto.
      * pose proof (dropout_draw_length p (data t) (rng s)) as Hl.
        destruct (dropout_draw p (data t) (rng s)) as [d g]. simpl in Hl.
        eexists _, _. split; [reflexivity|]. simpl. auto.
  - exists t, s. auto.
Qed.

(** Outside training mode, and for probability 0, dropout is the identity
    and does not touch the state. *)
Lemma Dropout_forward_id (p : R) (tr : bool) (t : Tensor) (s : State) :
  tr = false \/ p = 0%R -> Dropout_forward p tr t s = (Ok t, s).
Proof.
  unfold Dropout_forward, ret. intros [-> | ->]; simpl.
  - reflexivity.
  - destruct tr; simpl; [|reflexivity].
    destruct (Req_dec_T 0 0) as [_|H]; [reflexivity|]. now elim H.
Qed.

Lemma Layer_forward_run (tr : bool) (l : Layer) (t : Tensor) (s : State) :
  exists r s',
    Layer_forward tr l t s = (r, s') /\
    rmap shape r = Layer_shape l (shape t) /\
    logged s' = logged s /\
    (forall t', r = Ok t' -> (exists lin, l = Linear_ lin) \/ wf t -> wf t').
Proof.
  destruct l as [lin|a|p]; simpl.
  - exists (Linear_forward lin t), s. unfold lift. repeat split.
    + apply Linear_forward_shape.
    + intros t' H _. eapply Linear_forward_wf; eauto.
  - exists (Ok (PReLU_forward a t)), s. unfold ret. repeat split.
    intros t' H [[lin Hl]|Hw]; [discriminate|].
    injection H as <-. unfold wf, numel in *. simpl. now rewrite length_map.
  - destruct (Dropout_forward_run p tr t s) as (t' & s' & E & Hs & Hl & Hg).
    exists (Ok t'), s'. repeat split; auto.
    + simpl. now rewrite Hs.
    + intros t'' H [[lin Hlin]|Hw]; [discriminate|].
      injection H as <-. unfold wf, numel in *. now rewrite Hl, Hs.
Qed.

Lemma bind_ret_r (A : Type) (c : M A) (s : State) : bind c ret s = c s.
Proof. unfold bind, ret. destruct (c s) as [[a|e] s']; reflexivity. Qed.

(** A stack returns what its shapes say, leaves the metric log alone,
    and its result is well formed as soon as a Linear layer is in it. *)
Lemma Sequential_forward_run (tr : bool) (ls : Sequential) :
  forall (t : Tensor) (s : State),
  exists r s',
    Sequential_forward tr ls t s = (r, s') /\
    rmap shape r = Sequential_shape ls (shape t) /\
    logged s' = logged s /\
    (forall t', r = Ok t' -> (exists lin, In (Linear_ lin) ls) \/ wf t -> wf t').
Proof.
  induction ls as [|l ls IH]; intros t s.
  - exists (Ok t), s. simpl. unfold ret. repeat split.
    intros t' H [[lin []]|Hw]. now injection H as <-.
  - destruct (Layer_forward_run tr l t s) as (r0 & s0 & E0 & Hsh0 & Hlog0 & Hwf0).
    simpl. unfold bind. rewrite E0, <- Hsh0.
    destruct r0 as [t0|e]; simpl.
    + destruct (IH t0 s0) as (r & s' & E & Hsh & Hlog & Hwf).
      exists r, s'. repeat split; auto.
      * congruence.
      * intros t' Hr Hc. apply (Hwf t' Hr).
        destruct Hc as [[lin [Hl|Hl]]|Hw].
        -- right. apply (Hwf0 t0 eq_refl). left. now exists lin.
        -- left. now exists lin.
        -- destruct l as [lin|a|p].
           ++ right. apply (Hwf0 t0 eq_refl). left. now exists lin.
           ++ right. apply (Hwf0 t0 eq_refl). now right.
           ++ right. apply (Hwf0 t0 eq_refl). now right.
    + exists (Err e), s0. repeat split; auto. intros t' H. discriminate.
Qed.

(** Without an active dropout a stack is a function of its input: it
    returns the same result from every state and leaves the state as it
    was. *)
Lemma Sequential_forward_pure (tr : bool) (ls : Sequential) :
  tr = false \/ Forall (fun p => p = 0%R) (dropouts ls) ->
  forall t : Tensor, exists r, forall s : State, Sequential_forward tr ls t s = (r, s).
Proof.
  intros H. induction ls as [|l ls IH]; intros t.
  - exists (Ok t). reflexivity.
  - assert (Hl : exists r0, forall s, Layer_forward tr l t s = (r0, s)).
    { destruct l as [lin|a|p]; simpl.
      - now exists (Linear_forward lin t).
      - now exists (Ok (PReLU_forward a t)).
      - exists (Ok t). intros s. apply Dropout_forward_id.
        destruct H as [H|H]; [now left|right].
        simpl in H. now inversion H. }
    assert (H' : tr = false \/ Forall (fun p => p = 0%R) (dropouts ls)).
    { destruct H as [H|H]; [now left|right].
      destruct l; simpl in H; auto. now inversion H. }
    destruct Hl as [r0 Hr0]. destruct r0 as [t0|e].
    + destruct (IH H' t0) as [r Hr]. exists r. intros s.
      simpl. unfold bind. now rewrite Hr0, Hr.
    + exists (Err e). intros s. simpl. unfold bind. now rewrite Hr0.
Qed.

(** ** Encoder and Decoder *)

Lemma Encoder_shape (p : R) (th : StackParams) (n k : nat) :
  Sequential_shape (Encoder_encoder (Encoder_init p th)) [n; k]
  = if (k =? 784)%nat then Ok [n; 3%nat] else Err ShapeMismatch.
Proof.
  unfold Encoder_init, Encoder_encoder, Sequential_shape, Layer_shape, and_then.
  cbn [rev app in_features out_features].
  change (28 * 28)%nat with 784%nat.
  destruct (k =? 784)%nat; reflexivity.
Qed.

Lemma Decoder_shape (p : R) (th : StackParams) (n k : nat) :
  Sequential_shape (Decoder_decoder (Decoder_init p th)) [n; k]
  = if (k =? 3)%nat then Ok [n; 784%nat] else Err ShapeMismatch.
Proof.
  unfold Decoder_init, Decoder_decoder, Sequential_shape, Layer_shape, and_then.
  cbn [rev app in_features out_features].
  change (28 * 28)%nat with 784%nat.
  destruct (k =? 3)%nat; reflexivity.
Qed.

Lemma Encoder_forward_run (p : R) (th : StackParams) (tr : bool) (t : Tensor) (s : State) :
  exists r s',
    Encoder_forward (Encoder_init p th) tr t s = (r, s') /\
    rmap shape r = Sequential_shape (Encoder_encoder (Encoder_init p th)) (shape t) /\
    logged s' = logged s /\
    (forall t', r = Ok t' -> wf t').
Proof.
  unfold Encoder_forward.
  destruct (Sequential_forward_run tr (Encoder_encoder (Encoder_init p th)) t s)
    as (r & s' & E & Hsh & Hlog & Hwf).
  exists r, s'. repeat split; auto.
  intros t' Hr. apply (Hwf t' Hr). left. eexists. simpl. left. reflexivity.
Qed.

Lemma Decoder_forward_run (p : R) (th : StackParams) (tr : bool) (t : Tensor) (s : State) :
  exists r s',
    Decoder_forward (Decoder_init p th) tr t s = (r, s') /\
    rmap shape r = Sequential_shape (Decoder_decoder (Decoder_init p th)) (shape t) /\
    logged s' = logged s /\
    (forall t', r = Ok t' -> wf t').
Proof.
  unfold Decoder_forward. rewrite bind_ret_r.
  destruct (Sequential_forward_run tr (Decoder_decoder (Decoder_init p th)) t s)
    as (r & s' & E & Hsh & Hlog & Hwf).
  exists r, s'. repeat split; auto.
  intros t' Hr. apply (Hwf t' Hr). left. eexists. simpl. left. reflexivity.
Qed.

(** An encoder followed by a decoder on a two-dimensional tensor with
    [k] columns. *)
Lemma stack_run (pe pd : R) (the thd : StackParams) (tr : bool)
    (xf : Tensor) (s : State) (N k : nat) :
  shape xf = [N; k] ->
  if (k =? 784)%nat then
    exists z s1 xh s2,
      Encoder_forward (Encoder_init pe the) tr xf s = (Ok z, s1) /\
      shape z = [N; 3%nat] /\ wf z /\
      Decoder_forward (Decoder_init pd thd) tr z s1 = (Ok xh, s2) /\
      shape xh = [N; 784%nat] /\ wf xh /\
      logged s2 = logged s
  else
    exists s1,
      Encoder_forward (Encoder_init pe the) tr xf s = (Err ShapeMismatch, s1) /\
      logged s1 = logged s.
Proof.
  intros Hx.
  destruct (Encoder_forward_run pe the tr xf s) as (r & s1 & E & Hsh & Hlog & Hwf).
  rewrite Hx, Encoder_shape in Hsh.
  destruct (k =? 784)%nat.
  - destruct r as [z|e]; [|discriminate]. simpl in Hsh. injection Hsh as Hz.
    destruct (Decoder_forward_run pd thd tr z s1) as (r2 & s2 & E2 & Hsh2 & Hlog2 & Hwf2).
    rewrite Hz, Decoder_shape in Hsh2. simpl in Hsh2.
    destruct r2 as [xh|e]; [|discriminate]. simpl in Hsh2. injection Hsh2 as Hxh.
    exists z, s1, xh, s2. repeat split; auto. congruence.
  - destruct r as [z|e]; [discriminate|]. simpl in Hsh. injection Hsh as ->.
    exists s1. auto.
Qed.

(** ** The forward path of PodModule *)

Lemma flatten_nil (x : Tensor) : shape x = [] -> flatten x = Err IndexError.
Proof. unfold flatten, size. now intros ->. Qed.

Lemma flatten_cons (x : Tensor) (N : nat) (rest : list nat) :
  shape x = N :: rest ->
  flatten x = if (N =? 0)%nat then Err ViewError
              else Ok (mkTensor [N; prod rest] (data x)).
Proof.
  intros Hx. unfold flatten, size, view_infer, numel. rewrite Hx. simpl.
  fold (prod rest). destruct N as [|n].
  - reflexivity.
  - assert (Hm : ((S n * prod rest) mod S n =? 0)%nat = true).
    { apply Nat.eqb_eq. rewrite Nat.mul_comm. apply Nat.Div0.mod_mul. }
    assert (Hd : ((S n * prod rest) / S n)%nat = prod rest).
    { rewrite Nat.mul_comm. apply Nat.div_mul. discriminate. }
    rewrite Hm, Hd. change (0 <? S n)%nat with true.
    change (S n =? 0)%nat with false.
    rewrite orb_true_r. reflexivity.
Qed.

Lemma forward_unfold (self : PodModule) (x : Tensor) (s : State) :
  forward self x s =
  match flatten x with
  | Err e => (Err e, s)
  | Ok xf =>
      match Encoder_forward (encoder self) (training self) xf s with
      | (Err e, s1) => (Err e, s1)
      | (Ok z, s1) =>
          match Decoder_forward (decoder self) (training self) z s1 with
          | (Err e, s2) => (Err e, s2)
          | (Ok xh, s2) =>
              match log_softmax xh with
              | Err e => (Err e, s2)
              | Ok yh => (Ok (xh, yh), s2)
              end
          end
      end
  end.
Proof.
  unfold forward, flatten, and_then, bind, lift, ret.
  destruct (size x 0) as [n|e]; [|reflexivity].
  destruct (view_infer x n) as [xf|e]; [|reflexivity].
  destruct (Encoder_forward (encoder self) (training self) xf s) as [[z0|e] s1];
    [|reflexivity].
  destruct (Decoder_forward (decoder self) (training self) z0 s1) as [[xh|e] s2];
    [|reflexivity].
  destruct (log_softmax xh); reflexivity.
Qed.

Lemma common_flow_locals_unfold (self : PodModule) (x : Tensor) (y : Labels) (s : State) :
  common_flow_locals self (x, y) s =
  match flatten x with
  | Err e => (Err e, s)
  | Ok xf =>
      match Encoder_forward (encoder self) (training self) xf s with
      | (Err e, s1) => (Err e, s1)
      | (Ok z, s1) =>
          match Decoder_forward (decoder self) (training self) z s1 with
          | (Err e, s2) => (Err e, s2)
          | (Ok xh, s2) =>
              match log_softmax xh with
              | Err e => (Err e, s2)
              | Ok yh =>
                  match mse_loss xh xf with
                  | Err e => (Err e, s2)
                  | Ok l => (Ok (mkLocals xf z xh yh l), s2)
                  end
              end
          end
      end
  end.
Proof.
  unfold common_flow_locals, flatten, and_then, bind, lift, ret.
  destruct (size x 0) as [n|e]; [|reflexivity].
  destruct (view_infer x n) as [xf|e]; [|reflexivity].
  destruct (Encoder_forward (encoder self) (training self) xf s) as [[z0|e] s1];
    [|reflexivity].
  destruct (Decoder_forward (decoder self) (training self) z0 s1) as [[xh|e] s2];
    [|reflexivity].
  destruct (log_softmax xh); [|reflexivity].
  destruct (mse_loss xh xf); reflexivity.
Qed.

Lemma mse_loss_same_shape (a b : Tensor) :
  shape a = shape b -> mse_loss a b = Ok (mse a b).
Proof.
  intros H. unfold mse_loss.
  destruct (list_eq_dec Nat.eq_dec (shape a) (shape b)); [reflexivity|contradiction].
Qed.

(** The forward path of a module made by [PodModule_init], in either
    mode, on a batch of [N >= 1] samples of [k] scalars each: with
    [k = 784] every step returns and the loss is taken on operands of one
    shape; otherwise the first Linear layer of the encoder raises. *)
Lemma common_flow_shapes (opt : OptimizerClass) (rate p : R) (task : string)
    (the thd : StackParams) (tr : bool) (x : Tensor) (y : Labels) (s : State)
    (n : nat) (rest : list nat) :
  let self := train tr (PodModule_init opt rate p task the thd) in
  let xf := mkTensor [S n; prod rest] (data x) in
  shape x = S n :: rest ->
  if (prod rest =? 784)%nat then
    exists zl xh yh s2,
      forward self x s = (Ok (xh, yh), s2) /\
      common_flow_locals self (x, y) s = (Ok (mkLocals xf zl xh yh (mse xh xf)), s2) /\
      shape xh = [S n; 784%nat] /\ wf xh /\
      log_softmax xh = Ok yh /\
      logged s2 = logged s
  else
    exists s1,
      forward self x s = (Err ShapeMismatch, s1) /\
      common_flow_locals self (x, y) s = (Err ShapeMismatch, s1) /\
      logged s1 = logged s.
Proof.
  intros self xf Hx.
  rewrite forward_unfold, common_flow_locals_unfold.
  rewrite (flatten_cons x Hx). change (S n =? 0)%nat with false. cbv iota.
  fold xf. unfold self, train, PodModule_init; cbn [encoder decoder training].
  pose proof (@stack_run p p the thd tr xf s (S n) (prod rest) eq_refl) as Hrun.
  destruct (prod rest =? 784)%nat eqn:Ek.
  - destruct Hrun as (zl & s1 & xh & s2 & E1 & Hz & Hwz & E2 & Hxh & Hwf & Hlog).
    rewrite E1, E2.
    assert (Hls : log_softmax xh
                  = Ok (mkTensor [S n; 784%nat]
                          (flat_map (fun r => log_softmax_row (chunk r 784 (data xh)))
                                    (seq 0 (S n))))).
    { unfold log_softmax. rewrite Hxh. reflexivity. }
    rewrite Hls.
    apply Nat.eqb_eq in Ek.
    rewrite mse_loss_same_shape by (rewrite Hxh; unfold xf; simpl; now rewrite Ek).
    eexists zl, xh, _, s2. repeat split; auto.
  - destruct Hrun as (s1 & E1 & Hlog). rewrite E1. exists s1. auto.
Qed.


Lemma sq_diffs_nonneg (a b : list R) : (0 <= Rsum (sq_diffs a b))%R.
Proof.
  revert b. induction a as [|u a IH]; intros [|v b]; simpl; try lra.
  specialize (IH b). pose proof (Rle_0_sqr (u - v)) as Hs. unfold Rsqr in Hs. lra.
Qed.

(** The mean squared error is not negative. *)
Lemma mse_nonneg (a b : Tensor) : (0 <= mse a b)%R.
Proof.
  unfold mse. pose proof (sq_diffs_nonneg (data a) (data b)) as H.
  destruct (numel a) as [|k].
  - simpl. unfold Rdiv. rewrite Rinv_0. lra.
  - apply Rmult_le_pos; [exact H|].
    apply Rlt_le, Rinv_0_lt_compat. apply lt_0_INR. lia.
Qed.

(** ** The stages of [_common_flow] *)

Lemma common_flow_locals_logged (self : PodModule) (batch : Tensor * Labels) (s : State) :
  logged (snd (common_flow_locals self batch s)) = logged s.
Proof.
  destruct batch as [x y]. rewrite common_flow_locals_unfold.
  destruct (flatten x) as [xf|e]; [|reflexivity].
  unfold Encoder_forward, Decoder_forward.
  destruct (Sequential_forward_run (training self) (Encoder_encoder (encoder self)) xf s)
    as (r1 & s1 & E1 & _ & Hlog1 & _).
  rewrite E1. destruct r1 as [z0|e]; [|exact Hlog1].
  rewrite bind_ret_r.
  destruct (Sequential_forward_run (training self) (Decoder_decoder (decoder self)) z0 s1)
    as (r2 & s2 & E2 & _ & Hlog2 & _).
  rewrite E2. destruct r2 as [xh|e]; [|simpl; congruence].
  destruct (log_softmax xh); [|simpl; congruence].
  destruct (mse_loss xh xf); simpl; congruence.
Qed.

Lemma common_flow_training (self : PodModule) (batch : Tensor * Labels) (s : State) :
  _common_flow self batch "training" s =
  match common_flow_locals self batch s with
  | (Err e, s1) => (Err e, s1)
  | (Ok v, s1) =>
      (Ok (Some (loss v)),
       mkState (rng s1) (logged s1 ++ [("training_loss", loss v)]))
  end.
Proof.
  unfold _common_flow, bind.
  destruct (common_flow_locals self batch s) as [[v|e] s1]; reflexivity.
Qed.

Lemma common_flow_eval (self : PodModule) (batch : Tensor * Labels)
    (stage : string) (s : State) :
  stage = "val" \/ stage = "test" ->
  _common_flow self batch stage s =
  match common_flow_locals self batch s with
  | (Err e, s1) => (Err e, s1)
  | (Ok v, s1) =>
      match accuracy (y_hat v) (snd batch) (accuracy_task self) with
      | Err e => (Err e, s1)
      | Ok acc =>
          match structural_similarity_index_measure (x_hat v) (x_flat v) with
          | Err e => (Err e, s1)
          | Ok ssim =>
              (Ok None,
               mkState (rng s1)
                 (logged s1 ++ [ ((stage ++ "_ssim ")%string, ssim);
                                 ((stage ++ "_acc")%string, acc);
                                 ((stage ++ "_loss")%string, loss v) ]))
          end
      end
  end.
Proof.
  intros [-> | ->]; unfold _common_flow, bind, lift;
    destruct (common_flow_locals self batch s) as [[v|e] s1]; try reflexivity;
    cbn [stage_in existsb String.eqb Ascii.eqb Bool.eqb orb];
    destruct (accuracy (y_hat v) (snd batch) (accuracy_task self)) as [acc|e];
    try reflexivity;
    destruct (structural_similarity_index_measure (x_hat v) (x_flat v)) as [q|e];
    try reflexivity;
    unfold log, ret; cbn; rewrite <- !app_assoc; reflexivity.
Qed.

Lemma step_unfold (c : M (option R)) (s : State) :
  bind c (fun _ => ret None) s =
  match c s with
  | (Ok _, s1) => (Ok (@None R), s1)
  | (Err e, s1) => (Err e, s1)
  end.
Proof. reflexivity. Qed.

Lemma monitored_app (name : string) (l1 l2 : list (string * R)) :
  monitored name (l1 ++ l2) = monitored name l1 ++ monitored name l2.
Proof. apply filter_app. Qed.

(** ** The training step *)

(** C1.  The claim is that [training_step] returns the mean squared
    error of the batch as the optimization target.  [_common_flow]
    computes and returns that loss for the stage "training", but
    [training_step] calls it as a statement: whatever the module, the
    batch and the state, the step passes on the state and the exception of
    [_common_flow] and its own value is [None], never a loss. *)
Theorem training_step_returns_None :
  forall (self : PodModule) (batch : Tensor * Labels) (s : State),
    training_step self batch s =
      match _common_flow self batch "training" s with
      | (Ok _, s1) => (Ok None, s1)
      | (Err e, s1) => (Err e, s1)
      end
    /\ (forall l : R, fst (training_step self batch s) <> Ok (Some l)).
Proof.
  intros self batch s. unfold training_step. rewrite step_unfold. split.
  - reflexivity.
  - intros l. destruct (_common_flow self batch "training" s) as [[v|e] s1];
      simpl; discriminate.
Qed.

(** The loss that [training_step] drops: on a batch of [N >= 1] samples
    of 784 scalars, [_common_flow] returns the mean squared error of the
    reconstruction against the flattened input, a real number that is
    not negative, and records it as "training_loss". *)
Lemma common_flow_training_loss (opt : OptimizerClass) (rate p : R) (task : string)
    (the thd : StackParams) (tr : bool) (x : Tensor) (y : Labels) (s : State)
    (n : nat) (rest : list nat) :
  let self := train tr (PodModule_init opt rate p task the thd) in
  shape x = S n :: rest -> prod rest = 784%nat ->
  exists xh yh s1,
    forward self x s = (Ok (xh, yh), s1) /\
    _common_flow self (x, y) "training" s =
      (Ok (Some (mse xh (mkTensor [S n; 784%nat] (data x)))),
       mkState (rng s1)
         (logged s ++ [("training_loss", mse xh (mkTensor [S n; 784%nat] (data x)))])) /\
    (0 <= mse xh (mkTensor [S n; 784%nat] (data x)))%R.
Proof.
  intros self Hx Hk.
  pose proof (@common_flow_shapes opt rate p task the thd tr x y s n rest Hx) as H.
  rewrite Hk in H. columns_ok H.
  destruct H as (zl & xh & yh & s2 & Hf & Hl & Hsh & Hwf & Hls & Hlog).
  exists xh, yh, s2. split; [exact Hf|]. split; [|apply mse_nonneg].
  rewrite common_flow_training. subst self. rewrite Hl. cbn [loss].
  now rewrite Hlog.
Qed.

(** ** The validation and test steps *)



(** ** The metric that early stopping monitors *)

(** C3.  The claim is that the metric the early-stopping callback of the
    driver monitors, "loss", is one that the module records.  The module
    records "training_loss", "val_ssim ", "val_acc", "val_loss" and their
    test counterparts: no step, on any batch and from any state, returning
    or raising, adds an entry under the monitored name. *)
Theorem monitored_metric_never_recorded :
  forall (self : PodModule) (batch : Tensor * Labels) (s : State),
    monitor early_stopping = "loss" /\ mode early_stopping = "min" /\
    monitored (monitor early_stopping) (logged (snd (training_step self batch s)))
      = monitored (monitor early_stopping) (logged s) /\
    monitored (monitor early_stopping) (logged (snd (validation_step self batch s)))
      = monitored (monitor early_stopping) (logged s) /\
    monitored (monitor early_stopping) (logged (snd (test_step self batch s)))
      = monitored (monitor early_stopping) (logged s).
Proof.
  intros self batch s.
  pose proof (common_flow_locals_logged self batch s) as Hlog.
  unfold training_step, validation_step, test_step. rewrite !step_unfold.
  rewrite common_flow_training, !common_flow_eval by auto.
  split; [reflexivity|]. split; [reflexivity|].
  destruct (common_flow_locals self batch s) as [[v|e] s1]; simpl in Hlog.
  - destruct (accuracy (y_hat v) (snd batch) (accuracy_task self)) as [acc|e];
      [destruct (structural_similarity_index_measure (x_hat v) (x_flat v)) as [q|e]|];
      cbn [snd logged]; rewrite ?monitored_app, Hlog;
      repeat split; try reflexivity; apply app_nil_r.
  - cbn [snd]. rewrite Hlog. auto.
Qed.

(** ** The driver's model *)

(** C5.  The claim is that the name under which the driver constructs
    its model resolves to the module class of module.py.  The driver
    imports [LitModel]; module.py binds [PodModule] and no [LitModel], so
    running the driver raises ImportError before [main] is entered,
    whatever the other imports and [main] would do. *)
Theorem driver_model_name_unresolved :
  import_from module_py_names "LitModel" = Err (ImportError "LitModel") /\
  import_from module_py_names "PodModule" = Ok tt /\
  (forall import_datamodule main : result unit,
     trainer_py (Ok tt) import_datamodule main = Err (ImportError "LitModel")) /\
  (forall import_conf import_datamodule main : result unit,
     trainer_py import_conf import_datamodule main <> Ok tt).
Proof.
  repeat split.
  intros [[]|e] idm mn; simpl; discriminate.
Qed.

(** ** Determinism of the forward pass *)

Lemma forward_pure (opt : OptimizerClass) (rate p : R) (task : string)
    (the thd : StackParams) (tr : bool) (x : Tensor) :
  tr = false \/ p = 0%R ->
  exists r, forall s : State,
    forward (train tr (PodModule_init opt rate p task the thd)) x s = (r, s).
Proof.
  intros H.
  assert (Hd : forall th,
             tr = false \/ Forall (fun q => q = 0%R) (dropouts (Encoder_encoder (Encoder_init p th)))
             /\ Forall (fun q => q = 0%R) (dropouts (Decoder_decoder (Decoder_init p th)))).
  { intros th. destruct H as [H|H]; [now left|right]. simpl. auto. }
  assert (He : forall t, exists r, forall s : State,
             Encoder_forward (Encoder_init p the) tr t s = (r, s)).
  { intros t. apply Sequential_forward_pure.
    destruct (Hd the) as [Hf|[Hf _]]; auto. }
  assert (Hdec : forall t, exists r, forall s : State,
             Decoder_forward (Decoder_init p thd) tr t s = (r, s)).
  { intros t.
    destruct (@Sequential_forward_pure tr (Decoder_decoder (Decoder_init p thd))) with (t := t)
      as [r Hr].
    - destruct (Hd thd) as [Hf|[_ Hf]]; auto.
    - exists r. intros s. unfold Decoder_forward. now rewrite bind_ret_r. }
  destruct (flatten x) as [xf|e] eqn:Efl.
  - destruct (He xf) as [[z0|e] Hz].
    + destruct (Hdec z0) as [[xh|e] Hxh].
      * destruct (log_softmax xh) as [yh|e] eqn:Els.
        -- exists (Ok (xh, yh)). intros s. rewrite forward_unfold, Efl.
           cbn [encoder decoder training train PodModule_init].
           now rewrite Hz, Hxh, Els.
        -- exists (Err e). intros s. rewrite forward_unfold, Efl.
           cbn [encoder decoder training train PodModule_init].
           now rewrite Hz, Hxh, Els.
      * exists (Err e). intros s. rewrite forward_unfold, Efl.
        cbn [encoder decoder training train PodModule_init].
        now rewrite Hz, Hxh.
    + exists (Err e). intros s. rewrite forward_unfold, Efl.
      cbn [encoder decoder training train PodModule_init].
      now rewrite Hz.
  - exists (Err e). intros s. now rewrite forward_unfold, Efl.
Qed.

(** C6.  For a module constructed with dropout probability 0 and put in
    evaluation mode, and for every input: the forward pass returns the
    same output from every state of the generator and of the log and
    leaves the state as it found it, so a second invocation after a first
    one returns the output of the first. *)
Theorem forward_eval_deterministic :
  forall (opt : OptimizerClass) (rate p : R) (task : string)
         (the thd : StackParams) (tr : bool) (x : Tensor),
    p = 0%R -> tr = false ->
    let self := train tr (PodModule_init opt rate p task the thd) in
    (forall s s' : State, fst (forward self x s) = fst (forward self x s')) /\
    (forall s : State,
       fst (forward self x (snd (forward self x s))) = fst (forward self x s)
       /\ snd (forward self x s) = s).
Proof.
  intros opt rate p task the thd tr x Hp Htr self.
  destruct (@forward_pure opt rate p task the thd tr x (or_introl Htr)) as [r Hr].
  subst self. split.
  - intros s s'. now rewrite !Hr.
  - intros s. now rewrite !Hr.
Qed.

(** ** The two copies of the forward path *)

(** C8.  For every input [x], every label tensor and every state,
    [forward] and the first lines of [_common_flow] end alike: either
    both return, with the same [x_hat], the same [y_hat] and the same
    state, or both raise the same exception from the same state. *)
Theorem forward_common_flow_agree :
  forall (opt : OptimizerClass) (rate p : R) (task : string)
         (the thd : StackParams) (tr : bool) (x : Tensor) (y : Labels) (s : State),
    let self := train tr (PodModule_init opt rate p task the thd) in
    match forward self x s, common_flow_locals self (x, y) s with
    | (Ok (xh, yh), s1), (Ok v, s2) => x_hat v = xh /\ y_hat v = yh /\ s2 = s1
    | (Err e1, s1), (Err e2, s2) => e2 = e1 /\ s2 = s1
    | _, _ => False
    end.
Proof.
  intros opt rate p task the thd tr x y s self.
  destruct (shape x) as [|[|n] rest] eqn:Hx.
  - subst self. rewrite forward_unfold, common_flow_locals_unfold.
    rewrite (flatten_nil x Hx). auto.
  - subst self. rewrite forward_unfold, common_flow_locals_unfold.
    rewrite (flatten_cons x Hx). simpl. auto.
  - pose proof (@common_flow_shapes opt rate p task the thd tr x y s n rest Hx) as H.
    subst self. destruct (prod rest =? 784)%nat.
    + destruct H as (zl & xh & yh & s2 & Hf & Hl & _). rewrite Hf, Hl. simpl. auto.
    + destruct H as (s1 & Hf & Hl & _). rewrite Hf, Hl. auto.
Qed.

(** ** Which batches the forward pass accepts *)


(** ** Further properties of the steps *)

Lemma forward_logged (self : PodModule) (x : Tensor) (s : State) :
  logged (snd (forward self x s)) = logged s.
Proof.
  rewrite forward_unfold.
  destruct (flatten x) as [xf|e]; [|reflexivity].
  unfold Encoder_forward, Decoder_forward.
  destruct (Sequential_forward_run (training self) (Encoder_encoder (encoder self)) xf s)
    as (r1 & s1 & E1 & _ & Hlog1 & _).
  rewrite E1. destruct r1 as [z0|e]; [|exact Hlog1].
  rewrite bind_ret_r.
  destruct (Sequential_forward_run (training self) (Decoder_decoder (decoder self)) z0 s1)
    as (r2 & s2 & E2 & _ & Hlog2 & _).
  rewrite E2. destruct r2 as [xh|e]; [|simpl; congruence].
  destruct (log_softmax xh); simpl; congruence.
Qed.

(** X4.  The prediction step does not read the labels of its batch and
    records no metric, for every module, batch and state. *)
Theorem predict_step_ignores_labels :
  forall (self : PodModule) (x : Tensor) (y y' : Labels) (s : State),
    predict_step self (x, y) s = predict_step self (x, y') s /\
    logged (snd (predict_step self (x, y) s)) = logged s.
Proof.
  intros self x y y' s. unfold predict_step. split; [reflexivity|].
  apply forward_logged.
Qed.

Lemma common_flow_locals_eval_state (self : PodModule) (batch : Tensor * Labels)
    (s : State) :
  training self = false -> snd (common_flow_locals self batch s) = s.
Proof.
  intros Htr. destruct batch as [x y]. rewrite common_flow_locals_unfold.
  destruct (flatten x) as [xf|e]; [|reflexivity].
  unfold Encoder_forward, Decoder_forward. rewrite Htr.
  destruct (@Sequential_forward_pure false (Encoder_encoder (encoder self))
              (or_introl eq_refl) xf) as [r1 H1].
  rewrite H1. destruct r1 as [z0|e]; [|reflexivity].
  rewrite bind_ret_r.
  destruct (@Sequential_forward_pure false (Decoder_decoder (decoder self))
              (or_introl eq_refl) z0) as [r2 H2].
  rewrite H2. destruct r2 as [xh|e]; [|reflexivity].
  destruct (log_softmax xh); [|reflexivity].
  destruct (mse_loss xh xf); reflexivity.
Qed.

Lemma forward_eval_state (self : PodModule) (x : Tensor) (s : State) :
  training self = false -> snd (forward self x s) = s.
Proof.
  intros Htr. rewrite forward_unfold.
  destruct (flatten x) as [xf|e]; [|reflexivity].
  unfold Encoder_forward, Decoder_forward. rewrite Htr.
  destruct (@Sequential_forward_pure false (Encoder_encoder (encoder self))
              (or_introl eq_refl) xf) as [r1 H1].
  rewrite H1. destruct r1 as [z0|e]; [|reflexivity].
  rewrite bind_ret_r.
  destruct (@Sequential_forward_pure false (Decoder_decoder (decoder self))
              (or_introl eq_refl) z0) as [r2 H2].
  rewrite H2. destruct r2 as [xh|e]; [|reflexivity].
  destruct (log_softmax xh); reflexivity.
Qed.

(** X5.  In evaluation mode no step draws from the generator, whatever
    the dropout probability: after a training, validation or test step
    the generator is in the state it was in, and a prediction step leaves
    the whole state as it was. *)
Theorem eval_mode_draws_nothing :
  forall (self : PodModule) (batch : Tensor * Labels) (s : State),
    training self = false ->
    rng (snd (training_step self batch s)) = rng s /\
    rng (snd (validation_step self batch s)) = rng s /\
    rng (snd (test_step self batch s)) = rng s /\
    snd (predict_step self batch s) = s.
Proof.
  intros self batch s Htr.
  pose proof (common_flow_locals_eval_state self batch s Htr) as Hs.
  assert (Hp : snd (predict_step self batch s) = s).
  { destruct batch as [x y]. unfold predict_step. now apply forward_eval_state. }
  unfold training_step, validation_step, test_step. rewrite !step_unfold.
  rewrite common_flow_training, !common_flow_eval by auto.
  destruct (common_flow_locals self batch s) as [[v|e] s1]; simpl in Hs; subst s1.
  - destruct (accuracy (y_hat v) (snd batch) (accuracy_task self)) as [acc|e];
      [destruct (structural_similarity_index_measure (x_hat v) (x_flat v)) as [q|e]|];
      repeat split; try reflexivity; exact Hp.
  - repeat split; try reflexivity. exact Hp.
Qed.

(** X6.  Every step records all of its metrics or none: a training step
    either raises with the metric log as it was, or returns [None] with
    exactly one new entry, "training_loss"; a validation or test step
    either raises with the log as it was (also when only the second
    metric function raises), or returns [None] with exactly its three
    entries. *)
Theorem steps_record_all_or_nothing :
  forall (self : PodModule) (batch : Tensor * Labels) (s : State),
    (((exists e, fst (training_step self batch s) = Err e) /\
      logged (snd (training_step self batch s)) = logged s)
     \/
     (fst (training_step self batch s) = Ok None /\
      exists l, logged (snd (training_step self batch s))
                = logged s ++ [("training_loss", l)]))
    /\
    (((exists e, fst (validation_step self batch s) = Err e) /\
      logged (snd (validation_step self batch s)) = logged s)
     \/
     (fst (validation_step self batch s) = Ok None /\
      exists q a l, logged (snd (validation_step self batch s))
                    = logged s ++ [("val_ssim ", q); ("val_acc", a); ("val_loss", l)]))
    /\
    (((exists e, fst (test_step self batch s) = Err e) /\
      logged (snd (test_step self batch s)) = logged s)
     \/
     (fst (test_step self batch s) = Ok None /\
      exists q a l, logged (snd (test_step self batch s))
                    = logged s ++ [("test_ssim ", q); ("test_acc", a); ("test_loss", l)])).
Proof.
  intros self batch s.
  pose proof (common_flow_locals_logged self batch s) as Hlog.
  unfold training_step, validation_step, test_step. rewrite !step_unfold.
  rewrite common_flow_training, !common_flow_eval by auto.
  destruct (common_flow_locals self batch s) as [[v|e] s1]; simpl in Hlog.
  - split; [|split].
    + right. cbn [fst snd logged]. rewrite Hlog. split; [reflexivity|]. now eexists.
    + destruct (accuracy (y_hat v) (snd batch) (accuracy_task self)) as [acc|e];
        [destruct (structural_similarity_index_measure (x_hat v) (x_flat v)) as [q|e]|].
      * right. cbn [fst snd logged]. rewrite Hlog. split; [reflexivity|].
        now eexists _, _, _.
      * left. cbn [fst snd]. split; [now eexists|exact Hlog].
      * left. cbn [fst snd]. split; [now eexists|exact Hlog].
    + destruct (accuracy (y_hat v) (snd batch) (accuracy_task self)) as [acc|e];
        [destruct (structural_similarity_index_measure (x_hat v) (x_flat v)) as [q|e]|].
      * right. cbn [fst snd logged]. rewrite Hlog. split; [reflexivity|].
        now eexists _, _, _.
      * left. cbn [fst snd]. split; [now eexists|exact Hlog].
      * left. cbn [fst snd]. split; [now eexists|exact Hlog].
  - repeat split; left; cbn [fst snd]; (split; [now eexists|exact Hlog]).
Qed.

(** X7.  A stage name other than "training", "val" and "test" (the
    comparison is exact, so "validation" is one) is accepted silently:
    [_common_flow] runs the forward path, calls no metric function,
    records nothing and returns [None]. *)
Theorem common_flow_other_stage :
  forall (self : PodModule) (batch : Tensor * Labels) (stage : string) (s : State),
    stage <> "training" -> stage <> "val" -> stage <> "test" ->
    _common_flow self batch stage s =
      match common_flow_locals self batch s with
      | (Ok _, s1) => (Ok None, s1)
      | (Err e, s1) => (Err e, s1)
      end
    /\ logged (snd (_common_flow self batch stage s)) = logged s.
Proof.
  intros self batch stage s Htr Hval Htest.
  apply String.eqb_neq in Htr, Hval, Htest.
  pose proof (common_flow_locals_logged self batch s) as Hlog.
  assert (E : _common_flow self batch stage s =
              match common_flow_locals self batch s with
              | (Ok _, s1) => (Ok None, s1)
              | (Err e, s1) => (Err e, s1)
              end).
  { unfold _common_flow, bind, stage_in. cbn [existsb].
    rewrite Htr, Hval, Htest. cbn [orb].
    destruct (common_flow_locals self batch s) as [[v|e] s1]; reflexivity. }
  split; [exact E|]. rewrite E.
  destruct (common_flow_locals self batch s) as [[v|e] s1]; exact Hlog.
Qed.

(** ** The class-probability view *)

Lemma exp_le_Rsum (v : R) (row : list R) :
  In v row -> (exp v <= Rsum (map exp row))%R.
Proof.
  assert (Hnn : forall l, (0 <= Rsum (map exp l))%R).
  { induction l as [|u l IH]; simpl; [lra|]. pose proof (exp_pos u). lra. }
  induction row as [|u row IH]; intros Hin; [contradiction|].
  simpl. destruct Hin as [->|Hin].
  - specialize (Hnn row). lra.
  - specialize (IH Hin). pose proof (exp_pos u). lra.
Qed.

Lemma log_softmax_row_nonpos (row : list R) :
  Forall (fun v => (v <= 0)%R) (log_softmax_row row).
Proof.
  unfold log_softmax_row. apply Forall_map, Forall_forall. intros v Hin.
  pose proof (exp_le_Rsum v row Hin) as Hle.
  assert (Hpos : (0 < Rsum (map exp row))%R) by (pose proof (exp_pos v); lra).
  destruct (Rle_or_lt v (ln (Rsum (map exp row)))) as [H|H]; [lra|].
  apply exp_increasing in H. rewrite exp_ln in H by exact Hpos. lra.
Qed.

(** X9.  Whenever the forward pass returns, on any module and input,
    [y_hat] has the shape of [x_hat] and holds logarithms of
    probabilities: none of its entries is positive. *)
Theorem forward_y_hat_nonpositive :
  forall (self : PodModule) (x xh yh : Tensor) (s s1 : State),
    forward self x s = (Ok (xh, yh), s1) ->
    shape yh = shape xh /\ Forall (fun v => (v <= 0)%R) (data yh).
Proof.
  intros self x xh yh s s1 Hf. rewrite forward_unfold in Hf.
  destruct (flatten x) as [xf|e]; [|discriminate].
  destruct (Encoder_forward (encoder self) (training self) xf s) as [[z0|e] s2];
    [|discriminate].
  destruct (Decoder_forward (decoder self) (training self) z0 s2) as [[xh'|e] s3];
    [|discriminate].
  destruct (log_softmax xh') as [yh'|e] eqn:Els; [|discriminate].
  injection Hf as <- <- <-.
  unfold log_softmax in Els.
  destruct (shape xh') as [|n0 [|c [|? ?]]] eqn:Hsh; try discriminate.
  injection Els as <-. cbn [shape data]. split; [reflexivity|].
  apply Forall_flat_map, Forall_forall. intros r _. apply log_softmax_row_nonpos.
Qed.

(** ** Dropout at its two ends *)

Lemma Sequential_forward_mode_irrelevant (ls : Sequential) :
  Forall (fun p => p = 0%R) (dropouts ls) ->
  forall (tr tr' : bool) (t : Tensor) (s : State),
    Sequential_forward tr ls t s = Sequential_forward tr' ls t s.
Proof.
  induction ls as [|l ls IH]; intros H tr tr' t s; [reflexivity|].
  assert (Hl : Layer_forward tr l t s = Layer_forward tr' l t s).
  { destruct l as [lin|a|p]; try reflexivity.
    simpl in H. inversion H; subst. simpl.
    rewrite !Dropout_forward_id by (now right). reflexivity. }
  assert (H' : Forall (fun p => p = 0%R) (dropouts ls)).
  { destruct l; simpl in H; auto. now inversion H. }
  simpl. unfold bind. rewrite Hl.
  destruct (Layer_forward tr' l t s) as [[t0|e] s0]; [|reflexivity].
  now apply IH.
Qed.

(** X10.  With dropout probability 0 the mode of the module is
    immaterial: the forward pass and [_common_flow] at every stage give in
    training mode what they give in evaluation mode, result and state. *)
Theorem dropout_zero_mode_irrelevant :
  forall (opt : OptimizerClass) (rate : R) (task : string) (the thd : StackParams)
         (x : Tensor) (y : Labels) (stage : string) (s : State),
    forward (train true (PodModule_init opt rate 0 task the thd)) x s
    = forward (train false (PodModule_init opt rate 0 task the thd)) x s
    /\
    _common_flow (train true (PodModule_init opt rate 0 task the thd)) (x, y) stage s
    = _common_flow (train false (PodModule_init opt rate 0 task the thd)) (x, y) stage s.
Proof.
  intros opt rate task the thd x y stage s.
  assert (He : forall t s0,
             Encoder_forward (Encoder_init 0 the) true t s0
             = Encoder_forward (Encoder_init 0 the) false t s0).
  { intros t s0. unfold Encoder_forward.
    apply Sequential_forward_mode_irrelevant. simpl. auto. }
  assert (Hd : forall t s0,
             Decoder_forward (Decoder_init 0 thd) true t s0
             = Decoder_forward (Decoder_init 0 thd) false t s0).
  { intros t s0. unfold Decoder_forward. rewrite !bind_ret_r.
    apply Sequential_forward_mode_irrelevant. simpl. auto. }
  split.
  - rewrite !forward_unfold. cbn [encoder decoder training train PodModule_init].
    destruct (flatten x) as [xf|e]; [|reflexivity].
    rewrite He. destruct (Encoder_forward (Encoder_init 0 the) false xf s) as [[z0|e] s1];
      [|reflexivity].
    rewrite Hd. reflexivity.
  - assert (Hl : common_flow_locals (train true (PodModule_init opt rate 0 task the thd))
                   (x, y) s
                 = common_flow_locals (train false (PodModule_init opt rate 0 task the thd))
                     (x, y) s).
    { rewrite !common_flow_locals_unfold.
      cbn [encoder decoder training train PodModule_init].
      destruct (flatten x) as [xf|e]; [|reflexivity].
      rewrite He.
      destruct (Encoder_forward (Encoder_init 0 the) false xf s) as [[z0|e] s1];
        [|reflexivity].
      rewrite Hd. reflexivity. }
    unfold _common_flow, bind. rewrite Hl. reflexivity.
Qed.

End Pod.

(** ** The theorems at sample inputs

    The collaborators are a counter that always draws 0 and metric
    functions that return 1; the module has the default hyperparameters and
    parameters that are all zero, but for the slopes. *)

(** The first two lines of the forward path on the sample inputs. *)
Example flatten_four_images :
  flatten four_images = Ok (mkTensor [4; 784]%nat (repeat 0%R 3136)).
Proof. reflexivity. Qed.

Example flatten_empty_batch : flatten empty_batch = Err ViewError.
Proof. reflexivity. Qed.

Example flatten_scalar : flatten (mkTensor [] [1%R]) = Err IndexError.
Proof. reflexivity. Qed.

Example flatten_vector :
  flatten (mkTensor [3%nat] [1; 2; 3]%R) = Ok (mkTensor [3; 1]%nat [1; 2; 3]%R).
Proof. reflexivity. Qed.

(** A Linear layer refuses a last dimension that is not its in_features. *)
Example Linear_forward_mismatch :
  Linear_forward (mkLinear 3 2 (fun _ _ => 1%R) (fun _ => 0%R))
                 (mkTensor [1; 2]%nat [1; 2]%R)
  = Err ShapeMismatch.
Proof. reflexivity. Qed.

Example Linear_forward_two_rows :
  rmap shape (Linear_forward (mkLinear 3 2 (fun _ _ => 1%R) (fun _ => 0%R))
                (mkTensor [2; 3]%nat [1; 2; 3; 4; 5; 6]%R))
  = Ok [2; 2]%nat.
Proof. reflexivity. Qed.

Example import_PodModule : import_from module_py_names "PodModule" = Ok tt.
Proof. reflexivity. Qed.

Example trailing_space_val_ssim : trailing_space ("val" ++ "_ssim ") = true.
Proof. reflexivity. Qed.

Example trailing_space_val_loss : trailing_space ("val" ++ "_loss") = false.
Proof. reflexivity. Qed.

(** The forward pass on one sample of 784 zeros returns. *)
Lemma forward_one_sample (tr : bool) (g : nat) (l : list (string * R)) :
  exists xh yh s1,
    forward counter_uniform (train tr (PodModule_default zero_params zero_params))
      one_sample (mkState g l) = (Ok (xh, yh), s1).
Proof.
  unfold PodModule_default.
  pose proof (@common_flow_shapes nat counter_uniform Adam (1 / 1000) (1 / 2) "multilabel"
                zero_params zero_params tr one_sample [] (mkState g l) 0 [784%nat] eq_refl)
    as H.
  columns_ok H.
  destruct H as (zl & xh & yh & s2 & Hf & _).
  exists xh, yh, s2. exact Hf.
Qed.

(** C1 at a sample batch: [_common_flow] returns a loss that is not
    negative, and [training_step] returns [None]. *)
Lemma training_step_drops_loss :
  fst (training_step counter_uniform accuracy_const ssim_const
         (train true (PodModule_default zero_params zero_params))
         (one_sample, [0%nat]) (mkState 0%nat []))
  = Ok None
  /\ exists l : R,
       fst (_common_flow counter_uniform accuracy_const ssim_const
              (train true (PodModule_default zero_params zero_params))
              (one_sample, [0%nat]) "training" (mkState 0%nat []))
       = Ok (Some l) /\ (0 <= l)%R.
Proof.
  unfold PodModule_default.
  destruct (@common_flow_training_loss nat counter_uniform accuracy_const ssim_const
              Adam (1 / 1000) (1 / 2) "multilabel" zero_params zero_params true
              one_sample [0%nat] (mkState 0%nat []) 0 [784%nat] eq_refl eq_refl)
    as (xh & yh & s1 & _ & Hc & Hpos).
  destruct (@training_step_returns_None nat counter_uniform accuracy_const ssim_const
              (train true (PodModule_init Adam (1 / 1000) (1 / 2) "multilabel"
                             zero_params zero_params))
              (one_sample, [0%nat]) (mkState 0%nat [])) as [Ht _].
  rewrite Ht, Hc. split; [reflexivity|].
  eexists. split; [reflexivity|exact Hpos].
Defined.


(** C6 at a sample input, from two different states. *)
Lemma forward_eval_deterministic_witness :
  fst (forward counter_uniform
         (train false (PodModule_init Adam (1 / 1000) 0 "multilabel" zero_params zero_params))
         one_sample (mkState 0%nat []))
  = fst (forward counter_uniform
           (train false (PodModule_init Adam (1 / 1000) 0 "multilabel" zero_params zero_params))
           one_sample (mkState 7%nat [("val_loss", 1%R)])).
Proof.
  exact (proj1 (@forward_eval_deterministic nat counter_uniform Adam (1 / 1000) 0
                  "multilabel" zero_params zero_params false one_sample eq_refl eq_refl)
               (mkState 0%nat []) (mkState 7%nat [("val_loss", 1%R)])).
Defined.


(** In training mode with a probability strictly between 0 and 1 the
    dropout layer does depend on the generator. *)
Lemma Dropout_forward_depends_on_generator :
  fst (Dropout_forward alternating_uniform (1 / 2) true (mkTensor [1%nat] [1%R])
         (mkState true []))
  <> fst (Dropout_forward alternating_uniform (1 / 2) true (mkTensor [1%nat] [1%R])
            (mkState false [])).
Proof.
  unfold Dropout_forward. cbn [negb].
  destruct (Req_dec_T (1 / 2) 0) as [E|_]; [lra|].
  destruct (Req_dec_T (1 / 2) 1) as [E|_]; [lra|].
  cbn [dropout_draw alternating_uniform rng data fst snd].
  destruct (Rlt_dec 0 (1 - 1 / 2)) as [_|N]; [|lra].
  destruct (Rlt_dec (3 / 4) (1 - 1 / 2)) as [L|_]; [lra|].
  cbn. intros H. injection H as H. lra.
Qed.

(** ** The training stage and the metric functions *)

(** X12.  The training stage never calls a metric function: whatever the
    two metric functions are, and be it that they always raise,
    [_common_flow] at the stage "training" and [training_step] give the
    same result and the same state. *)
Theorem training_calls_no_metric :
  forall (Generator : Type) (uniform : Generator -> R * Generator)
         (accuracy accuracy' : Tensor -> Labels -> string -> result R)
         (ssim ssim' : Tensor -> Tensor -> result R)
         (self : PodModule) (batch : Tensor * Labels) (s : State Generator),
    _common_flow uniform accuracy ssim self batch "training" s
    = _common_flow uniform accuracy' ssim' self batch "training" s
    /\
    training_step uniform accuracy ssim self batch s
    = training_step uniform accuracy' ssim' self batch s.
Proof.
  intros Generator uniform accuracy accuracy' ssim ssim' self batch s.
  assert (H : _common_flow uniform accuracy ssim self batch "training" s
              = _common_flow uniform accuracy' ssim' self batch "training" s)
    by (now rewrite !common_flow_training).
  split; [exact H|].
  unfold training_step. rewrite !step_unfold, H. reflexivity.
Qed.

(** ** The run of [main] *)

Lemma dbind_call_ext (fails : Trace -> Call -> bool) (c : Call)
    (k k' : unit -> D unit) (tr : Trace) :
  (forall tr', k tt tr' = k' tt tr') ->
  dbind (call fails c) k tr = dbind (call fails c) k' tr.
Proof.
  intros H. unfold dbind, call. destruct (fails tr c); [reflexivity|apply H].
Qed.

Lemma dbind_call_dret (fails : Trace -> Call -> bool) (c : Call) (tr : Trace) :
  call fails c tr = dbind (call fails c) (fun _ => dret tt) tr.
Proof. unfold dbind, call, dret. destruct (fails tr c); reflexivity. Qed.

(** [main] makes the calls of [main_calls], in their order, up to the
    first that raises. *)
Lemma main_as_calls (fails : Trace -> Call -> bool) (conf : Conf)
    (fast_dev_run : FastDevRun) (tr : Trace) :
  main fails conf fast_dev_run tr = run_calls fails (main_calls conf fast_dev_run) tr.
Proof.
  unfold main, main_calls. cbv zeta. cbn [app run_calls]. revert tr.
  do 10 (let t := fresh "tr" in intros t; apply dbind_call_ext).
  destruct (negb (truthy fast_dev_run)); cbn [run_calls]; [|reflexivity].
  do 10 (let t := fresh "tr" in intros t; apply dbind_call_ext).
  intros tr'. apply dbind_call_dret.
Qed.

Lemma run_calls_trace (fails : Trace -> Call -> bool) (cs : list Call) :
  forall tr : Trace,
  exists k : nat,
    (k <= List.length cs)%nat /\
    snd (run_calls fails cs tr) = tr ++ firstn k cs /\
    match fst (run_calls fails cs tr) with
    | Returns _ => k = List.length cs
    | Raises c => nth_error cs (pred k) = Some c /\ (0 < k)%nat
    end.
Proof.
  induction cs as [|a cs IH]; intros tr.
  - exists 0%nat. simpl. rewrite app_nil_r. auto.
  - cbn [run_calls]. unfold dbind, call. destruct (fails tr a).
    + exists 1%nat. simpl. repeat split; auto; lia.
    + destruct (IH (tr ++ [a])) as (k & Hk & Htr & Hend).
      exists (S k). split; [simpl; lia|]. split.
      * rewrite Htr, <- app_assoc. reflexivity.
      * destruct (fst (run_calls fails cs (tr ++ [a]))) as [u|c]; [simpl; lia|].
        destruct Hend as [Hn Hpos]. split; [|lia].
        destruct k as [|k]; [lia|]. exact Hn.
Qed.

Lemma main_trace (fails : Trace -> Call -> bool) (conf : Conf) (fdr : FastDevRun) :
  exists k : nat,
    (k <= List.length (main_calls conf fdr))%nat /\
    snd (main fails conf fdr []) = firstn k (main_calls conf fdr) /\
    match fst (main fails conf fdr []) with
    | Returns _ => k = List.length (main_calls conf fdr)
    | Raises c => nth_error (main_calls conf fdr) (pred k) = Some c /\ (0 < k)%nat
    end.
Proof.
  rewrite main_as_calls.
  destruct (run_calls_trace fails (main_calls conf fdr) []) as (k & Hk & Htr & Hend).
  exists k. auto.
Qed.

Lemma In_firstn (A : Type) (x : A) (k : nat) (l : list A) :
  In x (firstn k l) -> In x l.
Proof.
  revert k. induction l as [|a l IH]; intros [|k] H; simpl in *; try contradiction.
  destruct H as [H|H]; [now left|right; eapply IH; eauto].
Qed.

Lemma existsb_firstn_false (A : Type) (f : A -> bool) (k : nat) (l : list A) :
  existsb f l = false -> existsb f (firstn k l) = false.
Proof.
  revert k. induction l as [|a l IH]; intros [|k] H; simpl in *; try reflexivity.
  apply orb_false_iff in H. destruct H as [Ha Hl]. rewrite Ha. simpl. now apply IH.
Qed.

(** X14.  When [fast_dev_run] is true, or a number of batches other than
    0, [main] stops after the fit: whichever calls raise, it runs no test
    and no prediction and writes no artifact; and when no call raises it
    returns after the ten calls up to reading the flag. *)
Theorem main_fast_dev_run_stops_after_fit :
  forall (fails : Trace -> Call -> bool) (conf : Conf) (fdr : FastDevRun),
    truthy fdr = true ->
    existsb writes_artifact (snd (main fails conf fdr [])) = false /\
    ~ In (trainer_test "best") (snd (main fails conf fdr [])) /\
    ~ In trainer_predict (snd (main fails conf fdr [])) /\
    main never_fails conf fdr [] =
      (Returns tt,
       [ new_TensorBoardLogger (LOGSPATH conf) "tensorboard";
         new_PyTorchProfiler (PROFILERPATH conf) "profiler";
         new_ModelCheckpoint (mkModelCheckpoint (CHKPTSPATH conf) "model");
         new_EarlyStopping early_stopping;
         seed_everything (GLOBALSEED conf) true;
         new_LitDataModule;
         new_LitModel;
         new_Trainer (callbacks (CHKPTSPATH conf));
         trainer_fit;
         read_fast_dev_run ]).
Proof.
  intros fails conf fdr Hfdr.
  destruct (main_trace fails conf fdr) as (k & _ & Htr & _).
  rewrite Htr. unfold main_calls. rewrite Hfdr. cbn [negb]. rewrite app_nil_r.
  split; [|split; [|split]].
  - apply existsb_firstn_false. reflexivity.
  - intros H. apply In_firstn in H. simpl in H.
    repeat (destruct H as [H|H]; [discriminate|]). exact H.
  - intros H. apply In_firstn in H. simpl in H.
    repeat (destruct H as [H|H]; [discriminate|]). exact H.
  - unfold main. rewrite Hfdr. reflexivity.
Qed.

(** X15.  [main] writes an artifact (the exported model, the predictions
    or a data split) only in a run without [fast_dev_run] in which the fit
    and the test with the best checkpoint have been called and have
    returned: whichever calls raise, an artifact in the trace has the fit
    and the test before it, and neither of them is the call that
    raised. *)
Theorem main_writes_only_after_fit_and_test :
  forall (fails : Trace -> Call -> bool) (conf : Conf) (fdr : FastDevRun) (c : Call),
    writes_artifact c = true ->
    In c (snd (main fails conf fdr [])) ->
    truthy fdr = false /\
    In trainer_fit (snd (main fails conf fdr [])) /\
    In (trainer_test "best") (snd (main fails conf fdr [])) /\
    fst (main fails conf fdr []) <> Raises trainer_fit /\
    fst (main fails conf fdr []) <> Raises (trainer_test "best").
Proof.
  intros fails conf fdr c Hw Hin.
  destruct (main_trace fails conf fdr) as (k & Hk & Htr & Hend).
  rewrite Htr in *. clear Htr.
  unfold main_calls in *. destruct (truthy fdr) eqn:Hfdr; cbn [negb app] in *.
  - exfalso. apply In_firstn in Hin. simpl in Hin.
    repeat (destruct Hin as [Hin|Hin]; [subst c; discriminate|]). exact Hin.
  - split; [reflexivity|].
    do 13 (destruct k as [|k];
           [ exfalso; simpl in Hin;
             repeat (destruct Hin as [Hin|Hin]; [subst c; discriminate|]); exact Hin
           | ]).
    split; [simpl; tauto|]. split; [simpl; tauto|].
    destruct (fst (main fails conf fdr [])) as [u|c'].
    + split; discriminate.
    + destruct Hend as [Hn _]. cbn [pred] in Hn.
      split; intros E; injection E as ->;
        do 9 (destruct k as [|k]; [discriminate|]);
        simpl in Hk; lia.
Qed.

(** ** The files of the data splits *)




(** ** The further theorems at sample inputs *)

(** X5 at a sample batch, in evaluation mode. *)
Lemma eval_mode_draws_nothing_witness :
  rng (snd (validation_step counter_uniform accuracy_const ssim_const
              (train false (PodModule_default zero_params zero_params))
              (one_sample, [0%nat]) (mkState 5%nat [])))
  = 5%nat.
Proof.
  exact (proj1 (proj2 (@eval_mode_draws_nothing nat counter_uniform accuracy_const
                         ssim_const
                         (train false (PodModule_default zero_params zero_params))
                         (one_sample, [0%nat]) (mkState 5%nat []) eq_refl))).
Defined.

(** X7 at the stage name "validation". *)
Lemma common_flow_other_stage_witness :
  logged (snd (_common_flow counter_uniform accuracy_const ssim_const
                 (train false (PodModule_default zero_params zero_params))
                 (one_sample, [0%nat]) "validation" (mkState 0%nat [])))
  = [].
Proof.
  apply (@common_flow_other_stage nat counter_uniform accuracy_const ssim_const
           (train false (PodModule_default zero_params zero_params))
           (one_sample, [0%nat]) "validation" (mkState 0%nat []));
    discriminate.
Defined.

(** X9 at one sample of 784 scalars. *)
Lemma forward_y_hat_nonpositive_witness :
  exists xh yh s1,
    forward counter_uniform (train false (PodModule_default zero_params zero_params))
      one_sample (mkState 0%nat []) = (Ok (xh, yh), s1) /\
    Forall (fun v => (v <= 0)%R) (data yh).
Proof.
  destruct (forward_one_sample false 0 []) as (xh & yh & s1 & Hf).
  exists xh, yh, s1. split; [exact Hf|].
  exact (proj2 (@forward_y_hat_nonpositive nat counter_uniform _ _ _ _ _ _ Hf)).
Defined.

(** X14 with [fast_dev_run] set to 3 batches, every call returning. *)
Lemma main_fast_dev_run_stops_after_fit_witness :
  existsb writes_artifact (snd (main never_fails sample_conf (FdrInt 3) [])) = false
  /\ List.length (snd (main never_fails sample_conf (FdrInt 3) [])) = 10%nat.
Proof.
  destruct (@main_fast_dev_run_stops_after_fit never_fails sample_conf (FdrInt 3) eq_refl)
    as (Hw & _ & _ & Hrun).
  split; [exact Hw|]. rewrite Hrun. reflexivity.
Defined.

(** X15 in a full run, every call returning: the last split is written,
    after the fit and the test. *)
Lemma main_writes_only_after_fit_and_test_witness :
  In (torch_save ValData "data/training_split/val.pt")
     (snd (main never_fails sample_conf (FdrInt 0) []))
  /\ In trainer_fit (snd (main never_fails sample_conf (FdrInt 0) []))
  /\ In (trainer_test "best") (snd (main never_fails sample_conf (FdrInt 0) [])).
Proof.
  assert (Hin : In (torch_save ValData "data/training_split/val.pt")
                   (snd (main never_fails sample_conf (FdrInt 0) []))).
  { vm_compute. tauto. }
  destruct (@main_writes_only_after_fit_and_test never_fails sample_conf (FdrInt 0)
              (torch_save ValData "data/training_split/val.pt") eq_refl Hin)
    as (_ & Hfit & Htest & _).
  split; [exact Hin|]. split; [exact Hfit|exact Htest].
Defined.

(** ** The constructors *)

(** C4.  The claim is about the forward of an Encoder and of a Decoder.
    Neither can be constructed: for every dropout probability,
    [Encoder(dropout)] and [Decoder(dropout)] raise TypeError, because
    both hand [nn.PReLU] the keyword [inplace], which it does not have.
    The Linear layer before it is constructed, the Dropout layer after it
    is never reached. *)
Theorem Encoder_Decoder_constructors_raise :
  forall (dropout : R) (th : StackParams),
    new_Encoder dropout th = Err (TypeError "inplace") /\
    new_Decoder dropout th = Err (TypeError "inplace") /\
    nn_Linear (mkLinear (28 * 28) 64 (W1 th) (B1 th))
    = Ok (Linear_ (mkLinear (28 * 28) 64 (W1 th) (B1 th))) /\
    nn_PReLU (slope th) = Err (TypeError "inplace").
Proof. intros dropout th. repeat split. Qed.

(** C7.  The claim is about the forward pass of a module constructed with
    the default hyperparameters.  [PodModule(...)] raises TypeError for
    every choice of hyperparameters, the defaults among them: its first
    statement after the call to the base class constructs the Encoder,
    which raises. *)
Theorem PodModule_constructor_raises :
  (forall (the thd : StackParams),
     new_PodModule Adam (1 / 1000) (1 / 2) "multilabel" the thd
     = Err (TypeError "inplace")) /\
  (forall (optimizer : OptimizerClass) (lr dropout : R) (accuracy_task : string)
          (the thd : StackParams),
     new_PodModule optimizer lr dropout accuracy_task the thd
     = Err (TypeError "inplace")).
Proof. split; intros; reflexivity. Qed.

(** ** The validation and test steps against the metric function of the
    library *)

Lemma torchmetrics_accuracy_raises (preds : Tensor) (target : Labels) (task : string) :
  torchmetrics_accuracy preds target task = Err (TypeError "accuracy_task").
Proof. reflexivity. Qed.

(** C2.  The claim is that a validation or test step records three
    metrics and returns no value.  With the call to [accuracy] of line 176
    as the library answers it, neither step ever returns, on any module,
    batch and state and whatever the structural-similarity function is:
    when the forward path and the loss have been computed the step raises
    the TypeError of the keyword [accuracy_task], otherwise it raises what
    the forward path raised; and it records nothing. *)
Theorem eval_steps_raise_on_accuracy_keyword :
  forall (Generator : Type) (uniform : Generator -> R * Generator)
         (ssim : Tensor -> Tensor -> result R)
         (self : PodModule) (batch : Tensor * Labels) (s : State Generator),
    fst (validation_step uniform torchmetrics_accuracy ssim self batch s)
    = match fst (common_flow_locals uniform self batch s) with
      | Ok _ => Err (TypeError "accuracy_task")
      | Err e => Err e
      end
    /\
    fst (test_step uniform torchmetrics_accuracy ssim self batch s)
    = match fst (common_flow_locals uniform self batch s) with
      | Ok _ => Err (TypeError "accuracy_task")
      | Err e => Err e
      end
    /\
    logged (snd (validation_step uniform torchmetrics_accuracy ssim self batch s))
    = logged s
    /\
    logged (snd (test_step uniform torchmetrics_accuracy ssim self batch s))
    = logged s.
Proof.
  intros Generator uniform ssim self batch s.
  pose proof (common_flow_locals_logged uniform self batch s) as Hlog.
  unfold validation_step, test_step. rewrite !step_unfold.
  rewrite !common_flow_eval by auto.
  destruct (common_flow_locals uniform self batch s) as [[v|e] s1]; simpl in Hlog.
  - rewrite torchmetrics_accuracy_raises. cbn [fst snd]. auto.
  - cbn [fst snd]. auto.
Qed.

